(** * batch-rename-models.py: the catalog update, embedded and verified

    The script loads a JSON asset catalog, walks [catalog['assets']],
    rewrites the [id], [label], [description] and [tags] of every asset of
    type "model" whose trailing id segment is a key of the hard-coded
    [renames] table, and dumps the catalog to a second file.

    Embedding.  Values are the trees [json.load] builds: every dict and list
    of the loaded catalog is a fresh object reached through one path only, so
    the in-place assignments of the loop are modelled as the replacement of
    the asset at its position.  A Python dict is an association list in
    insertion order.  Strings are byte strings (UTF-8): '/' is a single byte
    that never occurs inside a multi-byte sequence, so splitting and
    comparing bytes agrees with splitting and comparing code points.
    Exceptions and the two effects of the script (the file system and
    standard output) are threaded through a state-and-error monad.  The
    [json] encoder and decoder, the home directory and the paths that can be
    opened for writing are parameters of the script.  [print] always
    succeeds, a missing file is the one fault of reading, and a write fault
    is the failure of [open(output_path, 'w')]. *)

From Stdlib Require Import ZArith Ascii.
From Stdlib Require Floats.SpecFloat.
From stdpp Require Import base option list strings gmap.

(** ** Values *)

#[local] Set Warnings "-register-all".

Inductive number :=
| NInt (z : Z)
| NFloat (f : SpecFloat.spec_float).

Inductive json :=
| JNull
| JBool (b : bool)
| JNum (n : number)
| JStr (s : string)
| JArr (items : list json)
| JObj (members : list (string * json)).

Inductive exn :=
| FileNotFoundError
| JSONDecodeError
| OSError
| KeyError (k : string)
| TypeError
| AttributeError
| IndexError.

(** ** Python dicts: insertion-ordered association lists *)

Section Dict.
Context {V : Type}.

(** [d[k]] / [d.get(k)] *)
Fixpoint dict_get (k : string) (d : list (string * V)) : option V :=
  match d with
  | [] => None
  | (k', v) :: d' => if String.eqb k k' then Some v else dict_get k d'
  end.

(** [d[k] = v]: an existing key keeps its position, a new key is appended. *)
Fixpoint dict_set (k : string) (v : V) (d : list (string * V))
  : list (string * V) :=
  match d with
  | [] => [(k, v)]
  | (k', v') :: d' =>
      if String.eqb k k' then (k', v) :: d' else (k', v') :: dict_set k v d'
  end.

Definition dict_keys (d : list (string * V)) : list string := d.*1.
End Dict.

(** ** Strings *)

(** [s.split(sep)] for a one-character separator. *)
Fixpoint split (sep : ascii) (s : string) : list string :=
  match s with
  | EmptyString => [EmptyString]
  | String c s' =>
      if Ascii.eqb c sep then EmptyString :: split sep s'
      else match split sep s' with
           | [] => [String c EmptyString]
           | w :: ws => String c w :: ws
           end
  end.

(** The characters of a string, as Python iterates over it. *)
Fixpoint chars (s : string) : list string :=
  match s with
  | EmptyString => []
  | String c s' => String c EmptyString :: chars s'
  end.

(** ** The rename table (lines 17-96) *)

Record rename_data := RenameData {
  name : string;
  label : string;
  description : string;
  tags : list string
}.

Definition renames : list (string * rename_data) :=
  [ ("standard-model-1",
     RenameData "decorative-object-1" "Decorative Object 1"
       "3D decorative object for scenes (7.6M, medium-poly)"
       ["decorative"; "prop"; "medium-poly"; "indoor"]);
    ("detailed-model-2",
     RenameData "detailed-prop-1" "Detailed Prop 1"
       "High-detail prop model (9.7M, high-poly)"
       ["prop"; "detailed"; "high-poly"; "decorative"]);
    ("simple-model-3",
     RenameData "simple-prop-1" "Simple Prop 1"
       "Simple prop for background (4.7M, low-poly)"
       ["prop"; "simple"; "low-poly"; "background"]);
    ("detailed-model-4",
     RenameData "detailed-prop-2" "Detailed Prop 2"
       "High-detail prop model (13M, high-poly)"
       ["prop"; "detailed"; "high-poly"; "decorative"]);
    ("standard-model-5",
     RenameData "standard-prop-1" "Standard Prop 1"
       "Standard prop model (5.2M, medium-poly)"
       ["prop"; "standard"; "medium-poly"]);
    ("standard-model-6",
     RenameData "standard-prop-2" "Standard Prop 2"
       "Standard prop model (5.5M, medium-poly)"
       ["prop"; "standard"; "medium-poly"]);
    ("detailed-model-7",
     RenameData "detailed-prop-3" "Detailed Prop 3"
       "High-detail prop model (11M, high-poly)"
       ["prop"; "detailed"; "high-poly"]);
    ("standard-model-8",
     RenameData "standard-prop-3" "Standard Prop 3"
       "Standard prop model (6.8M, medium-poly)"
       ["prop"; "standard"; "medium-poly"]);
    ("standard-model-9",
     RenameData "standard-prop-4" "Standard Prop 4"
       "Standard prop model (9.0M, medium-poly)"
       ["prop"; "standard"; "medium-poly"]);
    ("detailed-model-11",
     RenameData "detailed-prop-4" "Detailed Prop 4"
       "High-detail prop model (9.7M, high-poly)"
       ["prop"; "detailed"; "high-poly"]);
    ("standard-model-12",
     RenameData "standard-prop-5" "Standard Prop 5"
       "Standard prop model (7.3M, medium-poly)"
       ["prop"; "standard"; "medium-poly"]);
    ("detailed-model-13",
     RenameData "chinese-dragon" "Chinese Dragon"
       "Oriental dragon with detailed scales and traditional design (12M, high-poly)"
       ["dragon"; "fantasy"; "creature"; "high-poly"; "hero-asset"; "oriental"]);
    ("detailed-model-14",
     RenameData "detailed-prop-5" "Detailed Prop 5"
       "High-detail prop model (10M, high-poly)"
       ["prop"; "detailed"; "high-poly"]) ].

(** ** The script monad: exceptions, the file system, standard output *)

Record world := World {
  files : gmap string string;
  stdout : list string
}.

Definition M (A : Type) : Type := world → (exn + A) * world.

Definition ret {A} (a : A) : M A := λ w, (inr a, w).
Definition raise {A} (e : exn) : M A := λ w, (inl e, w).
Definition bind {A B} (m : M A) (f : A → M B) : M B :=
  λ w, match m w with
       | (inl e, w') => (inl e, w')
       | (inr a, w') => f a w'
       end.

Declare Scope script_scope.
Delimit Scope script_scope with script.
Notation "'let*' x := m 'in' k" := (bind m (λ x, k))
  (at level 10, x name, m at level 100, k at level 200) : script_scope.
Notation "m ;; k" := (bind m (λ _, k))
  (at level 100, k at level 200, right associativity) : script_scope.
Local Open Scope script_scope.

(** [print(line)] *)
Definition print (line : string) : M unit :=
  λ w, (inr tt, World (files w) (stdout w ++ [line])).

(** ** Python operations on values *)

(** [o[k]] with a string subscript. *)
Definition getitem (o : json) (k : string) : M json :=
  match o with
  | JObj d => match dict_get k d with
              | Some v => ret v
              | None => raise (KeyError k)
              end
  | _ => raise TypeError
  end.

(** [o[k] = v] with a string subscript. *)
Definition setitem (o : json) (k : string) (v : json) : M json :=
  match o with
  | JObj d => ret (JObj (dict_set k v d))
  | _ => raise TypeError
  end.

(** [v == s] for a string literal [s]. *)
Definition eq_str (v : json) (s : string) : bool :=
  match v with
  | JStr t => String.eqb t s
  | _ => false
  end.

(** [v.split(sep)]: only [str] has the method. *)
Definition method_split (v : json) (sep : ascii) : M (list string) :=
  match v with
  | JStr s => ret (split sep s)
  | _ => raise AttributeError
  end.

(** [l[-1]] *)
Definition index_last (l : list string) : M string :=
  match last l with
  | Some x => ret x
  | None => raise IndexError
  end.

(** The values a [for] loop draws from [v]: the items of a list, the keys of
    a dict, the characters of a string. *)
Definition iterate (v : json) : M (list json) :=
  match v with
  | JArr l => ret l
  | JObj d => ret (JStr <$> dict_keys d)
  | JStr s => ret (JStr <$> chars s)
  | _ => raise TypeError
  end.

(** ** The update loop (lines 99-111) *)

Definition check_mark : string := "✓".
Definition arrow : string := "→".

(** The body of the loop; the result is the asset as the body leaves it. *)
Definition update_asset (asset : json) : M json :=
  let* ty := getitem asset "type" in
  if eq_str ty "model" then
    let* id := getitem asset "id" in
    let* parts := method_split id "/" in
    let* old_id := index_last parts in
    match dict_get old_id renames with
    | Some rename_data =>
        let new_id := "downloads-pack/" +:+ name rename_data in
        let* asset := setitem asset "id" (JStr new_id) in
        let* asset := setitem asset "label" (JStr (label rename_data)) in
        let* asset :=
          setitem asset "description" (JStr (description rename_data)) in
        let* asset :=
          setitem asset "tags" (JArr (JStr <$> tags rename_data)) in
        print (check_mark +:+ " " +:+ old_id +:+ " " +:+ arrow +:+ " "
               +:+ name rename_data) ;;
        ret asset
    | None => ret asset
    end
  else ret asset.

(** [for asset in assets: body], collecting the assets as the loop leaves
    them. *)
Fixpoint for_each (body : json → M json) (assets : list json)
  : M (list json) :=
  match assets with
  | [] => ret []
  | asset :: rest =>
      let* asset' := body asset in
      let* rest' := for_each body rest in
      ret (asset' :: rest')
  end.

(** The loop over [catalog['assets']].  The loop assigns into the asset
    dicts it draws from the list, so afterwards the list under "assets"
    holds the assets as the body left them; the strings drawn from a dict or
    a string are not part of the catalog. *)
Definition update_catalog (catalog : json) : M json :=
  let* assets := getitem catalog "assets" in
  let* items := iterate assets in
  let* items' := for_each update_asset items in
  match catalog, assets with
  | JObj d, JArr _ => ret (JObj (dict_set "assets" (JArr items') d))
  | _, _ => ret catalog
  end.

(** ** The script (lines 10-14 and 113-121) *)

Definition nl : string := String (ascii_of_nat 10) EmptyString.

Section Script.
(** The environment of a run: the home directory [os.path.expanduser]
    resolves "~" to ([None] when it cannot be resolved, and the path is
    returned as it is), the decoder and encoder of the [json] module, and
    the paths that can be opened for writing. *)
Variable userhome : option string.
Variable json_loads : string → option json.
Variable json_dumps : nat → json → string.
Variable writable : string → bool.

(** [os.path.expanduser(path)] for a path that starts with "~/". *)
Definition expanduser (path : string) : string :=
  match path, userhome with
  | String "~" rest, Some home => home +:+ rest
  | _, _ => path
  end.

Definition catalog_path : string :=
  expanduser "~/.claude/asset-packs/webgpu-threejs-tsl/packs/downloads-pack/downloads.catalog.json".

Definition output_path : string :=
  expanduser "~/Downloads/downloads-renamed.catalog.json".

(** [open(path, 'r')] followed by reading the whole file. *)
Definition open_read (path : string) : M string :=
  λ w, match files w !! path with
       | Some text => (inr text, w)
       | None => (inl FileNotFoundError, w)
       end.

(** [json.load] on the text read. *)
Definition json_load (text : string) : M json :=
  match json_loads text with
  | Some v => ret v
  | None => raise JSONDecodeError
  end.

(** [open(path, 'w')]: creates or truncates the file. *)
Definition open_write (path : string) : M unit :=
  λ w, if writable path
       then (inr tt, World (<[path := EmptyString]> (files w)) (stdout w))
       else (inl OSError, w).

(** [json.dump(obj, f, indent=indent)] on the file opened at [path]. *)
Definition json_dump (obj : json) (path : string) (indent : nat) : M unit :=
  λ w, (inr tt,
        World (<[path := json_dumps indent obj]> (files w)) (stdout w)).

Definition main : M unit :=
  let* text := open_read catalog_path in
  let* catalog := json_load text in
  let* catalog := update_catalog catalog in
  open_write output_path ;;
  json_dump catalog output_path 2 ;;
  print (nl +:+ check_mark +:+ " Updated catalog saved to: "
         +:+ output_path) ;;
  print (nl +:+ "To apply:") ;;
  print ("  cp " +:+ catalog_path +:+ " " +:+ catalog_path +:+ ".backup") ;;
  print ("  cp " +:+ output_path +:+ " " +:+ catalog_path).

(** What the script prints after the dump. *)
Definition closing_lines : list string :=
  [ nl +:+ check_mark +:+ " Updated catalog saved to: " +:+ output_path;
    nl +:+ "To apply:";
    "  cp " +:+ catalog_path +:+ " " +:+ catalog_path +:+ ".backup";
    "  cp " +:+ output_path +:+ " " +:+ catalog_path ].
End Script.

(** ** Vocabulary of the statements *)

(** [occurs sep s]: the character [sep] occurs in [s]. *)
Fixpoint occurs (sep : ascii) (s : string) : bool :=
  match s with
  | EmptyString => false
  | String c s' => Ascii.eqb c sep || occurs sep s'
  end.

(** The trailing segment in the words of the specification: the part of [s]
    after its last [sep], the whole of [s] when [sep] does not occur. *)
Fixpoint after_last (sep : ascii) (s : string) : string :=
  match s with
  | EmptyString => EmptyString
  | String c s' =>
      if occurs sep s' then after_last sep s'
      else if Ascii.eqb c sep then s'
      else s
  end.

(** A field of an asset record. *)
Definition field (k : string) (asset : json) : option json :=
  match asset with
  | JObj d => dict_get k d
  | _ => None
  end.

(** The asset list of a catalog. *)
Definition assets_of (catalog : json) : option (list json) :=
  match field "assets" catalog with
  | Some (JArr l) => Some l
  | _ => None
  end.

(** The rename criterion: the asset is of type "model" and the trailing
    segment [k] of its id is a key of the table, with entry [rd]. *)
Definition criterion (asset : json) (k : string) (rd : rename_data) : Prop :=
  ∃ s, field "type" asset = Some (JStr "model")
     ∧ field "id" asset = Some (JStr s)
     ∧ after_last "/" s = k
     ∧ dict_get k renames = Some rd.

(** The line the loop prints for a renamed asset. *)
Definition rename_line (k : string) (rd : rename_data) : string :=
  check_mark +:+ " " +:+ k +:+ " " +:+ arrow +:+ " " +:+ name rd.

(** The four assignments of the loop body, on the dict of the asset. *)
Definition assign_fields (rd : rename_data) (d : list (string * json))
  : list (string * json) :=
  dict_set "tags" (JArr (JStr <$> tags rd))
    (dict_set "description" (JStr (description rd))
       (dict_set "label" (JStr (label rd))
          (dict_set "id" (JStr ("downloads-pack/" +:+ name rd)) d))).

Definition say (line : string) (w : world) : world :=
  World (files w) (stdout w ++ [line]).

(** The criterion as a function: the key and the entry an asset selects. *)
Definition selected (asset : json) : option (string * rename_data) :=
  match field "type" asset, field "id" asset with
  | Some ty, Some (JStr s) =>
      if eq_str ty "model"
      then (λ rd, (after_last "/" s, rd)) <$> dict_get (after_last "/" s) renames
      else None
  | _, _ => None
  end.

(** One application of the table to an asset. *)
Definition rename_once (asset : json) : json :=
  match selected asset, asset with
  | Some (_, rd), JObj d => JObj (assign_fields rd d)
  | _, _ => asset
  end.

(** The lines one pass over [assets] prints. *)
Definition rename_lines (assets : list json) : list string :=
  omap (λ a, (λ '(k, rd), rename_line k rd) <$> selected a) assets.

(** The assets on which the loop body raises nothing: records with a "type"
    field and, when the type is "model", a string "id". *)
Definition well_formed (asset : json) : bool :=
  match asset with
  | JObj d =>
      match dict_get "type" d with
      | Some ty =>
          if eq_str ty "model"
          then match dict_get "id" d with
               | Some (JStr _) => true
               | _ => false
               end
          else true
      | None => false
      end
  | _ => false
  end.


(** ** Sample data *)

Definition sample_fields : list (string * json) :=
  [("id", JStr "old-pack/standard-model-1");
   ("type", JStr "model");
   ("label", JStr "Standard Model 1");
   ("path", JStr "models/standard-model-1.glb");
   ("tags", JArr [JStr "model"])].

Definition sample_model : json := JObj sample_fields.

Definition sample_texture : json :=
  JObj [("id", JStr "downloads-pack/standard-model-1");
        ("type", JStr "texture");
        ("label", JStr "Wood");
        ("description", JStr "Wood grain");
        ("tags", JArr [])].

Definition sample_catalog : json :=
  JObj [("pack", JStr "downloads-pack");
        ("assets", JArr [sample_texture; sample_model]);
        ("version", JNum (NInt 1))].

Definition sample_world : world := World ∅ [].

Definition sample_entry : rename_data :=
  RenameData "decorative-object-1" "Decorative Object 1"
    "3D decorative object for scenes (7.6M, medium-poly)"
    ["decorative"; "prop"; "medium-poly"; "indoor"].

(** The sample catalog after the update: the key "description", new to the
    model, goes last; the texture is as it was. *)
Definition sample_fields' : list (string * json) :=
  [("id", JStr "downloads-pack/decorative-object-1");
   ("type", JStr "model");
   ("label", JStr "Decorative Object 1");
   ("path", JStr "models/standard-model-1.glb");
   ("tags", JArr [JStr "decorative"; JStr "prop"; JStr "medium-poly";
                  JStr "indoor"]);
   ("description",
    JStr "3D decorative object for scenes (7.6M, medium-poly)")].

Definition sample_model' : json := JObj sample_fields'.

Definition sample_catalog' : json :=
  JObj [("pack", JStr "downloads-pack");
        ("assets", JArr [sample_texture; sample_model']);
        ("version", JNum (NInt 1))].

Definition sample_world' : world :=
  World ∅ [rename_line "standard-model-1" sample_entry].

(** A sample environment: a home directory, a decoder that knows one
    document, an encoder that writes a placeholder. *)
Definition sample_home : option string := Some "/home/u".

Definition sample_loads (text : string) : option json :=
  if String.eqb text "<catalog>" then Some sample_catalog else None.

Definition sample_dumps (indent : nat) (v : json) : string := "<updated>".

Definition sample_files : gmap string string :=
  {[ catalog_path sample_home := "<catalog>" ]}.


Definition sample_start : world := World sample_files [].

(** The sample run to its end: the output file beside the input file, the
    line of the rename and the closing lines on standard output. *)
Definition sample_final : world :=
  World (<[output_path sample_home := "<updated>"]> sample_files)
        (rename_line "standard-model-1" sample_entry
         :: closing_lines sample_home).

(** ** Further sample data *)

(** A model whose id is a bare key of the table, and its entry. *)
Definition sample_dragon : json :=
  JObj [("type", JStr "model"); ("id", JStr "detailed-model-13")].

Definition dragon_entry : rename_data :=
  RenameData "chinese-dragon" "Chinese Dragon"
    "Oriental dragon with detailed scales and traditional design (12M, high-poly)"
    ["dragon"; "fantasy"; "creature"; "high-poly"; "hero-asset"; "oriental"].





(** * Proofs *)

(** ** Dicts *)

Section DictFacts.
Context {V : Type}.
Implicit Types (d : list (string * V)) (k : string) (v : V).

Lemma dict_get_set_eq k v d : dict_get k (dict_set k v d) = Some v.
Proof.
  induction d as [|[k' v'] d IH]; simpl.
  - by rewrite String.eqb_refl.
  - destruct (String.eqb k k') eqn:E; simpl; rewrite E; [done|apply IH].
Qed.

Lemma dict_get_set_ne k k' v d :
  k ≠ k' → dict_get k' (dict_set k v d) = dict_get k' d.
Proof.
  intros Hne. induction d as [|[k0 v0] d IH]; simpl.
  - destruct (String.eqb k' k) eqn:E; [|done].
    apply String.eqb_eq in E. congruence.
  - destruct (String.eqb k k0) eqn:E; simpl; [|by rewrite IH].
    apply String.eqb_eq in E. subst k0.
    destruct (String.eqb k' k) eqn:E'; [|done].
    apply String.eqb_eq in E'. congruence.
Qed.

Lemma dict_keys_set_present k v d :
  is_Some (dict_get k d) → dict_keys (dict_set k v d) = dict_keys d.
Proof.
  unfold dict_keys. induction d as [|[k' v'] d IH]; simpl.
  - intros [? ?]. discriminate.
  - destruct (String.eqb k k'); simpl; [done|].
    intros H. f_equal. by apply IH.
Qed.

Lemma dict_keys_set_absent k v d :
  dict_get k d = None → dict_keys (dict_set k v d) = dict_keys d ++ [k].
Proof.
  unfold dict_keys. induction d as [|[k' v'] d IH]; simpl; [done|].
  destruct (String.eqb k k'); simpl; [done|].
  intros H. f_equal. by apply IH.
Qed.

Lemma dict_keys_set_prefix k v d :
  dict_keys d `prefix_of` dict_keys (dict_set k v d).
Proof.
  destruct (dict_get k d) as [x|] eqn:E.
  - by rewrite dict_keys_set_present.
  - rewrite dict_keys_set_absent by done. by apply prefix_app_r.
Qed.

Lemma dict_set_set k v v' d :
  dict_set k v (dict_set k v' d) = dict_set k v d.
Proof.
  induction d as [|[k0 v0] d IH]; simpl.
  - by rewrite String.eqb_refl.
  - destruct (String.eqb k k0) eqn:E; simpl; rewrite E; [done|by rewrite IH].
Qed.

Lemma dict_set_length k v d : length d ≤ length (dict_set k v d).
Proof.
  induction d as [|[k' v'] d IH]; simpl; [lia|].
  destruct (String.eqb k k'); simpl; lia.
Qed.
End DictFacts.

(** ** Splitting *)

Lemma occurs_false_split sep s : occurs sep s = false → split sep s = [s].
Proof.
  induction s as [|c s IH]; simpl; [done|].
  destruct (Ascii.eqb c sep); simpl; [done|].
  intros H. by rewrite IH.
Qed.

Lemma occurs_true_split sep s :
  occurs sep s = true → ∃ w x ws, split sep s = w :: x :: ws.
Proof.
  induction s as [|c s IH]; simpl; [done|].
  destruct (Ascii.eqb c sep) eqn:E; simpl.
  - intros _. destruct (occurs sep s) eqn:O.
    + destruct (IH eq_refl) as (w & x & ws & ->). eauto.
    + rewrite occurs_false_split by done. eauto.
  - intros O. destruct (IH O) as (w & x & ws & ->). eauto.
Qed.

Lemma split_not_nil sep s : split sep s ≠ [].
Proof.
  destruct (occurs sep s) eqn:O.
  - destruct (occurs_true_split _ _ O) as (w & x & ws & ->). done.
  - by rewrite occurs_false_split.
Qed.

Lemma after_last_no_occurs sep s : occurs sep s = false → after_last sep s = s.
Proof.
  destruct s as [|c s]; simpl; [done|].
  destruct (Ascii.eqb c sep); simpl; [done|]. by intros ->.
Qed.

(** [s.split(sep)[-1]] is the trailing segment of the specification. *)
Lemma last_split sep s : last (split sep s) = Some (after_last sep s).
Proof.
  induction s as [|c s IH]; simpl; [done|].
  destruct (occurs sep s) eqn:O.
  - destruct (occurs_true_split _ _ O) as (w & x & ws & E).
    rewrite E in IH |- *. by destruct (Ascii.eqb c sep).
  - rewrite occurs_false_split by done.
    by destruct (Ascii.eqb c sep).
Qed.

Lemma occurs_app sep p s : occurs sep (p +:+ String sep s) = true.
Proof.
  induction p as [|c p IH]; simpl.
  - by rewrite Ascii.eqb_refl.
  - rewrite IH. by destruct (Ascii.eqb c sep).
Qed.

Lemma after_last_app sep p k :
  occurs sep k = false → after_last sep (p +:+ String sep k) = k.
Proof.
  intros Hk. induction p as [|c p IH]; simpl.
  - by rewrite Hk, Ascii.eqb_refl.
  - by rewrite occurs_app.
Qed.

(** [after_last] is what its name says: free of [sep], and either the whole
    string or what follows a [sep]. *)
Lemma after_last_spec sep s :
  occurs sep (after_last sep s) = false
  ∧ (if occurs sep s
     then ∃ p, s = p +:+ String sep (after_last sep s)
     else after_last sep s = s).
Proof.
  induction s as [|c s [IH1 IH2]]; simpl; [done|].
  destruct (occurs sep s) eqn:O.
  - split; [done|]. rewrite orb_true_r.
    destruct IH2 as [p Hp]. exists (String c p).
    change (String c s = String c (p +:+ String sep (after_last sep s))).
    by f_equal.
  - rewrite orb_false_r. destruct (Ascii.eqb c sep) eqn:E.
    + split; [done|]. apply Ascii.eqb_eq in E. subst c. by exists EmptyString.
    + simpl. by rewrite E, O.
Qed.

(** ** The table *)

Lemma dict_get_elem_of {V} k (v : V) d : dict_get k d = Some v → (k, v) ∈ d.
Proof.
  induction d as [|[k' v'] d IH]; simpl; [done|].
  destruct (String.eqb k k') eqn:E.
  - apply String.eqb_eq in E. intros [= ->]. subst. left.
  - intros H. right. by apply IH.
Qed.

(** No new name contains a '/' and no new name is a key of the table. *)
Lemma renames_names_fresh :
  Forall (λ e, occurs "/" (name e.2) = false
             ∧ dict_get (name e.2) renames = None) renames.
Proof. unfold renames. repeat constructor. Qed.

Lemma renames_fresh k rd :
  dict_get k renames = Some rd →
  occurs "/" (name rd) = false ∧ dict_get (name rd) renames = None.
Proof.
  intros H. apply dict_get_elem_of in H.
  exact (proj1 (Forall_forall _ _) renames_names_fresh (k, rd) H).
Qed.

(** No key of the table contains a '/'. *)
Lemma renames_keys_no_slash :
  Forall (λ e, occurs "/" e.1 = false) renames.
Proof. unfold renames. repeat constructor. Qed.

Lemma renames_key_no_slash k rd :
  dict_get k renames = Some rd → occurs "/" k = false.
Proof.
  intros H. apply dict_get_elem_of in H.
  exact (proj1 (Forall_forall _ _) renames_keys_no_slash (k, rd) H).
Qed.

(** ** The loop body *)

#[local] Opaque renames.

Lemma eq_str_true v s : eq_str v s = true ↔ v = JStr s.
Proof.
  destruct v; simpl; try (split; [done|intros [=]]).
  rewrite String.eqb_eq. split; [by intros ->|by intros [= ->]].
Qed.

Lemma selected_criterion asset k rd :
  selected asset = Some (k, rd) ↔ criterion asset k rd.
Proof.
  unfold selected, criterion. split.
  - destruct (field "type" asset) as [ty|]; [|done].
    destruct (field "id" asset) as [[| | |s| |]|]; try done.
    destruct (eq_str ty "model") eqn:E; [|done].
    apply eq_str_true in E. subst ty.
    destruct (dict_get (after_last "/" s) renames) as [rd'|] eqn:R; [|done].
    simpl. intros [= <- <-]. by exists s.
  - intros (s & -> & -> & <- & R). simpl. by rewrite R.
Qed.

(** A selected asset is renamed, and the rename is printed. *)
Lemma update_asset_selected asset k rd w :
  selected asset = Some (k, rd) →
  update_asset asset w = (inr (rename_once asset), say (rename_line k rd) w).
Proof.
  intros Hsel. unfold rename_once. rewrite Hsel.
  apply selected_criterion in Hsel as (s & Ht & Hi & Hk & Hr).
  destruct asset as [| | | | |d]; try done. simpl in Ht, Hi.
  unfold update_asset, bind, getitem, ret. rewrite Ht. simpl.
  rewrite Hi. simpl. unfold index_last. rewrite last_split, Hk. simpl.
  rewrite Hr. reflexivity.
Qed.

(** Whenever the body returns, it has applied the table once and printed the
    line of the rename, if any. *)
Lemma update_asset_ok asset asset' w w' :
  update_asset asset w = (inr asset', w') →
  asset' = rename_once asset
  ∧ w' = match selected asset with
         | Some (k, rd) => say (rename_line k rd) w
         | None => w
         end.
Proof.
  destruct (selected asset) as [[k rd]|] eqn:Hsel.
  - rewrite (update_asset_selected _ _ _ _ Hsel). by intros [= <- <-].
  - unfold rename_once. rewrite Hsel. revert Hsel.
    destruct asset as [| | | | |d]; try done.
    unfold selected, update_asset, bind, getitem, ret, raise. simpl.
    destruct (dict_get "type" d) as [ty|]; [|done].
    destruct (eq_str ty "model"); [|by intros _ [= <- <-]].
    destruct (dict_get "id" d) as [[| | |s| |]|]; try done.
    simpl. unfold index_last. rewrite last_split. simpl.
    destruct (dict_get (after_last "/" s) renames); [done|].
    by intros _ [= <- <-].
Qed.

(** The body returns exactly on the well-formed assets. *)
Lemma update_asset_well_formed asset asset' w w' :
  update_asset asset w = (inr asset', w') → well_formed asset = true.
Proof.
  destruct asset as [| | | | |d]; try done.
  unfold update_asset, bind, getitem, ret, raise. simpl.
  destruct (dict_get "type" d) as [ty|]; [|done].
  destruct (eq_str ty "model"); [|done].
  by destruct (dict_get "id" d) as [[| | |s| |]|].
Qed.

Lemma update_asset_total asset w :
  well_formed asset = true →
  update_asset asset w
  = (inr (rename_once asset),
     match selected asset with
     | Some (k, rd) => say (rename_line k rd) w
     | None => w
     end).
Proof.
  intros Hwf. destruct (selected asset) as [[k rd]|] eqn:Hsel.
  - by apply update_asset_selected.
  - unfold rename_once. rewrite Hsel. revert Hwf Hsel.
    destruct asset as [| | | | |d]; try done.
    unfold selected, update_asset, bind, getitem, ret, raise. simpl.
    destruct (dict_get "type" d) as [ty|]; [|done].
    destruct (eq_str ty "model"); [|done].
    destruct (dict_get "id" d) as [[| | |s| |]|]; try done.
    simpl. unfold index_last. rewrite last_split. simpl.
    by destruct (dict_get (after_last "/" s) renames).
Qed.

(** ** The loop *)

Lemma for_each_update assets assets' w w' :
  for_each update_asset assets w = (inr assets', w') →
  assets' = rename_once <$> assets
  ∧ w' = World (files w) (stdout w ++ rename_lines assets).
Proof.
  revert assets' w. induction assets as [|a l IH]; intros l' w; simpl.
  - intros [= <- <-]. rewrite app_nil_r. by destruct w.
  - unfold bind at 1.
    destruct (update_asset a w) as [[e|a'] w1] eqn:Ha; [done|].
    unfold bind at 1.
    destruct (for_each update_asset l w1) as [[e|l1] w2] eqn:Hl; [done|].
    intros [= <- <-].
    apply update_asset_ok in Ha as [-> ->].
    apply IH in Hl as [-> ->].
    split; [done|]. unfold rename_lines. simpl.
    destruct (selected a) as [[k rd]|]; simpl; [|done].
    by rewrite <- app_assoc.
Qed.

Lemma for_each_total assets w :
  Forall (λ a, well_formed a = true) assets →
  for_each update_asset assets w
  = (inr (rename_once <$> assets),
     World (files w) (stdout w ++ rename_lines assets)).
Proof.
  intros H. revert w. induction H as [|a l Ha _ IH]; intros w; simpl.
  - rewrite app_nil_r. by destruct w.
  - unfold bind at 1. rewrite (update_asset_total _ w Ha).
    unfold bind at 1. rewrite IH. unfold ret, rename_lines. simpl.
    destruct (selected a) as [[k rd]|]; simpl; [|done].
    by rewrite <- app_assoc.
Qed.

Lemma for_each_well_formed assets assets' w w' :
  for_each update_asset assets w = (inr assets', w') →
  Forall (λ a, well_formed a = true) assets.
Proof.
  revert assets' w w'. induction assets as [|a l IH]; intros l' w w'; simpl.
  - constructor.
  - unfold bind at 1.
    destruct (update_asset a w) as [[e|a'] w1] eqn:Ha; [done|].
    unfold bind at 1.
    destruct (for_each update_asset l w1) as [[e|l1] w2] eqn:Hl; [done|].
    intros _. constructor; [by eapply update_asset_well_formed|by eapply IH].
Qed.

(** ** The catalog *)

Lemma assets_of_inv catalog assets :
  assets_of catalog = Some assets →
  ∃ d, catalog = JObj d ∧ dict_get "assets" d = Some (JArr assets).
Proof.
  unfold assets_of. destruct catalog as [| | | | |d]; try done. simpl.
  destruct (dict_get "assets" d) as [[| | | |l|]|] eqn:E; try done.
  intros [= ->]. by exists d.
Qed.

(** Iterating over the keys of a dict or the characters of a string only
    returns when there is none: the body raises on the first. *)
Lemma for_each_strings (l : list string) l' w w' :
  for_each update_asset (JStr <$> l) w = (inr l', w') → l = [].
Proof.
  destruct l as [|s l]; [done|]. simpl.
  unfold bind at 1. by unfold update_asset, bind, getitem, raise.
Qed.

(** A run on a catalog whose "assets" is a list. *)
Lemma update_catalog_list catalog catalog' assets w w' :
  update_catalog catalog w = (inr catalog', w') →
  assets_of catalog = Some assets →
  ∃ d, catalog = JObj d
     ∧ catalog' = JObj (dict_set "assets" (JArr (rename_once <$> assets)) d)
     ∧ w' = World (files w) (stdout w ++ rename_lines assets)
     ∧ Forall (λ a, well_formed a = true) assets.
Proof.
  intros Hrun (d & -> & Hd)%assets_of_inv. exists d. split; [done|].
  revert Hrun. unfold update_catalog, bind, getitem, ret. rewrite Hd. simpl.
  destruct (for_each update_asset assets w) as [[e|l1] w1] eqn:Hl; [done|].
  assert (Hwf := for_each_well_formed _ _ _ _ Hl).
  apply for_each_update in Hl as [-> ->]. by intros [= <- <-].
Qed.

(** A run on any other catalog leaves it as it is, whatever the world. *)
Lemma update_catalog_no_list catalog catalog' w w' :
  update_catalog catalog w = (inr catalog', w') →
  assets_of catalog = None →
  catalog' = catalog ∧ w' = w
  ∧ ∀ w1, update_catalog catalog w1 = (inr catalog, w1).
Proof.
  unfold assets_of, update_catalog, bind, getitem, ret, raise.
  destruct catalog as [| | | | |d]; try done. simpl.
  destruct (dict_get "assets" d) as [[| | |s|l|d0]|]; try done; simpl.
  - destruct (for_each update_asset (JStr <$> chars s) w)
      as [[e|l1] w1] eqn:Hl; [done|].
    apply for_each_strings in Hl as Hnil. rewrite Hnil in Hl |- *.
    simpl in Hl. unfold ret in Hl. by intros [= <- <-]; simplify_eq.
  - destruct (for_each update_asset (JStr <$> dict_keys d0) w)
      as [[e|l1] w1] eqn:Hl; [done|].
    apply for_each_strings in Hl as Hnil. rewrite Hnil in Hl |- *.
    simpl in Hl. unfold ret in Hl. by intros [= <- <-]; simplify_eq.
Qed.

(** The run returns on every catalog whose assets are well formed. *)
Lemma update_catalog_total d assets w :
  dict_get "assets" d = Some (JArr assets) →
  Forall (λ a, well_formed a = true) assets →
  update_catalog (JObj d) w
  = (inr (JObj (dict_set "assets" (JArr (rename_once <$> assets)) d)),
     World (files w) (stdout w ++ rename_lines assets)).
Proof.
  intros Hd Hwf. unfold update_catalog, bind, getitem, ret. rewrite Hd. simpl.
  by rewrite for_each_total.
Qed.

Lemma assets_of_update d assets :
  assets_of (JObj (dict_set "assets" (JArr assets) d)) = Some assets.
Proof. unfold assets_of. simpl. by rewrite dict_get_set_eq. Qed.

(** The assets of the updated catalog, position by position. *)
Lemma update_catalog_lookup catalog catalog' assets i asset w w' :
  update_catalog catalog w = (inr catalog', w') →
  assets_of catalog = Some assets →
  assets !! i = Some asset →
  ∃ assets', assets_of catalog' = Some assets'
           ∧ assets' !! i = Some (rename_once asset).
Proof.
  intros Hrun Ha Hi.
  destruct (update_catalog_list _ _ _ _ _ Hrun Ha) as (d & -> & -> & _ & _).
  exists (rename_once <$> assets). split; [apply assets_of_update|].
  by rewrite list_lookup_fmap, Hi.
Qed.

Lemma field_assign_fields rd d :
  field "id" (JObj (assign_fields rd d))
  = Some (JStr ("downloads-pack/" +:+ name rd))
  ∧ field "label" (JObj (assign_fields rd d)) = Some (JStr (label rd))
  ∧ field "description" (JObj (assign_fields rd d))
    = Some (JStr (description rd))
  ∧ field "tags" (JObj (assign_fields rd d))
    = Some (JArr (JStr <$> tags rd)).
Proof.
  unfold assign_fields, field.
  repeat split;
    repeat first [ apply dict_get_set_eq
                 | rewrite dict_get_set_ne by discriminate ].
Qed.

Lemma field_assign_fields_other rd d f :
  f ∉ ["id"; "label"; "description"; "tags"] →
  field f (JObj (assign_fields rd d)) = field f (JObj d).
Proof.
  intros Hf. unfold assign_fields, field.
  rewrite !dict_get_set_ne; [done|intros <-; apply Hf; set_solver..].
Qed.

Lemma field_type_assign_fields rd d :
  field "type" (JObj (assign_fields rd d)) = field "type" (JObj d).
Proof.
  unfold assign_fields, field. by rewrite !dict_get_set_ne by discriminate.
Qed.

Lemma criterion_rename_once asset k rd :
  criterion asset k rd →
  ∃ d, asset = JObj d ∧ rename_once asset = JObj (assign_fields rd d).
Proof.
  intros Hc. assert (Hsel := proj2 (selected_criterion _ _ _) Hc).
  destruct Hc as (s & Ht & _). destruct asset as [| | | | |d]; try done.
  exists d. split; [done|]. unfold rename_once. by rewrite Hsel.
Qed.

Lemma not_criterion_rename_once asset :
  (∀ k rd, ¬ criterion asset k rd) → rename_once asset = asset.
Proof.
  intros Hn. unfold rename_once.
  destruct (selected asset) as [[k rd]|] eqn:Hsel; [|done].
  apply selected_criterion in Hsel. by destruct (Hn k rd).
Qed.

(** Not matching, spelled out: the type is not "model", or the trailing
    segment of the id is not a key. *)
Lemma not_criterion_cases asset :
  (∀ k rd, ¬ criterion asset k rd)
  ↔ (field "type" asset ≠ Some (JStr "model")
     ∨ ∀ s, field "id" asset = Some (JStr s) →
            dict_get (after_last "/" s) renames = None).
Proof.
  split.
  - intros Hn.
    destruct (field "type" asset) as [ty|] eqn:Ht; [|by left].
    destruct (eq_str ty "model") eqn:E.
    + apply eq_str_true in E. subst ty. right. intros s Hi.
      destruct (dict_get (after_last "/" s) renames) as [rd|] eqn:R; [|done].
      destruct (Hn (after_last "/" s) rd). by exists s.
    + left. intros [= ->]. discriminate E.
  - intros [Ht|Hk] k rd (s & Ht' & Hi & <- & R); [done|].
    by rewrite (Hk s Hi) in R.
Qed.

(** ** A second pass *)

Lemma selected_rename_once asset : selected (rename_once asset) = None.
Proof.
  unfold rename_once.
  destruct (selected asset) as [[k rd]|] eqn:Hsel; [|done].
  assert (Hr := Hsel). apply selected_criterion in Hr as (s & Ht & _ & _ & Hr).
  destruct asset as [| | | | |d]; try done.
  destruct (renames_fresh _ _ Hr) as [Hslash Hfresh].
  destruct (field_assign_fields rd d) as (Hid & _).
  unfold selected. rewrite Hid, field_type_assign_fields, Ht.
  change ("downloads-pack/" +:+ name rd)
    with ("downloads-pack" +:+ String "/" (name rd)).
  rewrite after_last_app by done. by rewrite Hfresh.
Qed.

Lemma rename_once_idem asset : rename_once (rename_once asset) = rename_once asset.
Proof.
  unfold rename_once at 1. by rewrite selected_rename_once.
Qed.

Lemma well_formed_rename_once asset :
  well_formed asset = true → well_formed (rename_once asset) = true.
Proof.
  unfold rename_once.
  destruct (selected asset) as [[k rd]|] eqn:Hsel; [|done].
  apply selected_criterion in Hsel as (s & Ht & _).
  destruct asset as [| | | | |d]; try done. intros _.
  destruct (field_assign_fields rd d) as (Hid & _).
  pose proof (field_type_assign_fields rd d) as Hty.
  simpl in Hid, Hty, Ht. unfold well_formed.
  by rewrite Hty, Ht, Hid.
Qed.

Lemma rename_lines_cons a l :
  rename_lines (a :: l)
  = match selected a with
    | Some (k, rd) => rename_line k rd :: rename_lines l
    | None => rename_lines l
    end.
Proof. unfold rename_lines. simpl. by destruct (selected a) as [[k rd]|]. Qed.

Lemma rename_lines_length assets :
  length (rename_lines assets)
  = length (filter (λ a, is_Some (selected a)) assets).
Proof.
  induction assets as [|a l IH]; [done|].
  rewrite rename_lines_cons.
  destruct (selected a) as [[k rd]|] eqn:E.
  - rewrite filter_cons_True by (rewrite E; eauto). simpl. by rewrite IH.
  - by rewrite filter_cons_False by (rewrite E; by intros [? ?]).
Qed.

Lemma rename_lines_rename_once assets :
  rename_lines (rename_once <$> assets) = [].
Proof.
  unfold rename_lines. induction assets as [|a l IH]; simpl; [done|].
  by rewrite selected_rename_once.
Qed.

(** * The claims *)

(** C1. For every asset of the input catalog whose type is "model" and whose
    trailing id segment [k] is a key of the rename table with entry [rd], the
    asset at the same position of the output catalog has the id
    "downloads-pack/" followed by the entry's name, and the label,
    description and tags of the entry. *)
Theorem renamed_asset_has_table_fields
    catalog catalog' w w' assets i asset k rd :
  update_catalog catalog w = (inr catalog', w') →
  assets_of catalog = Some assets →
  assets !! i = Some asset →
  criterion asset k rd →
  ∃ assets' asset',
    assets_of catalog' = Some assets'
    ∧ assets' !! i = Some asset'
    ∧ field "id" asset' = Some (JStr ("downloads-pack/" +:+ name rd))
    ∧ field "label" asset' = Some (JStr (label rd))
    ∧ field "description" asset' = Some (JStr (description rd))
    ∧ field "tags" asset' = Some (JArr (JStr <$> tags rd)).
Proof.
  intros Hrun Ha Hi Hc.
  destruct (update_catalog_lookup _ _ _ _ _ _ _ Hrun Ha Hi)
    as (assets' & Ha' & Hi').
  destruct (criterion_rename_once _ _ _ Hc) as (d & -> & Hr).
  exists assets', (rename_once (JObj d)). rewrite Hr at 2 3 4 5.
  split; [done|]. split; [done|]. apply field_assign_fields.
Qed.

(** C2. Every asset of the input catalog that does not match the rename
    criterion is, at the same position of the output catalog, the same in
    every field. *)
Theorem unmatched_asset_unchanged catalog catalog' w w' assets i asset :
  update_catalog catalog w = (inr catalog', w') →
  assets_of catalog = Some assets →
  assets !! i = Some asset →
  (∀ k rd, ¬ criterion asset k rd) →
  ∃ assets', assets_of catalog' = Some assets' ∧ assets' !! i = Some asset.
Proof.
  intros Hrun Ha Hi Hn.
  destruct (update_catalog_lookup _ _ _ _ _ _ _ Hrun Ha Hi)
    as (assets' & Ha' & Hi').
  exists assets'. split; [done|]. by rewrite <- (not_criterion_rename_once asset).
Qed.


(** C5. One run applies the table to each matching asset exactly once: the
    loop leaves, position by position and in list order, the one-time rename
    of every asset of the list, and prints one line per matching asset, in
    list order; the file system is not touched. *)
Theorem table_applied_once catalog catalog' w w' assets :
  update_catalog catalog w = (inr catalog', w') →
  assets_of catalog = Some assets →
  assets_of catalog' = Some (rename_once <$> assets)
  ∧ stdout w' = stdout w ++ rename_lines assets
  ∧ length (rename_lines assets)
    = length (filter (λ a, is_Some (selected a)) assets)
  ∧ files w' = files w.
Proof.
  intros Hrun Ha.
  destruct (update_catalog_list _ _ _ _ _ Hrun Ha) as (d & -> & -> & -> & _).
  split; [apply assets_of_update|]. split; [done|]. split; [|done].
  apply rename_lines_length.
Qed.

(** C8. For a matched asset the new id is "downloads-pack/" followed by the
    entry's name whatever came before the trailing segment of the old id: no
    prefix at all, or any prefix, of this pack or of another. *)
Theorem new_id_ignores_prefix d s prefix k rd w :
  dict_get "type" d = Some (JStr "model") →
  dict_get "id" d = Some (JStr s) →
  s = k ∨ s = prefix +:+ "/" +:+ k →
  dict_get k renames = Some rd →
  ∃ asset',
    update_asset (JObj d) w = (inr asset', say (rename_line k rd) w)
    ∧ field "id" asset' = Some (JStr ("downloads-pack/" +:+ name rd)).
Proof.
  intros Ht Hi Hs Hr.
  assert (Hk : after_last "/" s = k).
  { pose proof (renames_key_no_slash _ _ Hr) as Hno.
    destruct Hs as [->| ->].
    - by apply after_last_no_occurs.
    - by apply after_last_app. }
  assert (Hc : criterion (JObj d) k rd) by (by exists s).
  exists (rename_once (JObj d)). split.
  - apply update_asset_selected. by apply selected_criterion.
  - destruct (criterion_rename_once _ _ _ Hc) as (d' & [= <-] & ->).
    apply field_assign_fields.
Qed.

(** C9. The update is idempotent: a run on an updated catalog returns the
    same catalog and prints nothing, and the reason is that no new name of
    the table is one of its keys. *)
Theorem update_idempotent catalog catalog' w w' :
  update_catalog catalog w = (inr catalog', w') →
  (∀ w1, update_catalog catalog' w1 = (inr catalog', w1))
  ∧ (∀ k rd, dict_get k renames = Some rd →
             dict_get (name rd) renames = None).
Proof.
  intros Hrun. split; [|intros k rd H; by apply (renames_fresh k)].
  destruct (assets_of catalog) as [assets|] eqn:Ha.
  - destruct (update_catalog_list _ _ _ _ _ Hrun Ha)
      as (d & -> & -> & _ & Hwf).
    intros w1.
    rewrite (update_catalog_total _ (rename_once <$> assets)).
    + rewrite dict_set_set, rename_lines_rename_once, app_nil_r.
      rewrite <- list_fmap_compose.
      rewrite (list_fmap_ext (rename_once ∘ rename_once) rename_once)
        by (intros; apply rename_once_idem).
      by destruct w1.
    + apply dict_get_set_eq.
    + apply Forall_fmap. eapply Forall_impl; [exact Hwf|].
      intros a. apply well_formed_rename_once.
  - by destruct (update_catalog_no_list _ _ _ _ Hrun Ha) as (-> & _ & H).
Qed.

(** C10. For a matched asset every field other than id, label, description
    and tags keeps its input value: the type is still "model", the other
    fields are what they were, and the keys the record had stay in their
    order. *)
Theorem matched_asset_other_fields_kept
    catalog catalog' w w' assets i asset k rd :
  update_catalog catalog w = (inr catalog', w') →
  assets_of catalog = Some assets →
  assets !! i = Some asset →
  criterion asset k rd →
  ∃ assets' d d',
    assets_of catalog' = Some assets'
    ∧ asset = JObj d
    ∧ assets' !! i = Some (JObj d')
    ∧ dict_get "type" d' = Some (JStr "model")
    ∧ (∀ f, f ∉ ["id"; "label"; "description"; "tags"] →
            dict_get f d' = dict_get f d)
    ∧ dict_keys d `prefix_of` dict_keys d'.
Proof.
  intros Hrun Ha Hi Hc.
  destruct (update_catalog_lookup _ _ _ _ _ _ _ Hrun Ha Hi)
    as (assets' & Ha' & Hi').
  destruct (criterion_rename_once _ _ _ Hc) as (d & -> & Hr).
  rewrite Hr in Hi'. exists assets', d, (assign_fields rd d).
  destruct Hc as (s & Ht & _).
  repeat split; try done.
  - pose proof (field_type_assign_fields rd d) as Hty. simpl in Hty, Ht.
    by rewrite Hty.
  - intros f Hf. apply (field_assign_fields_other rd d f Hf).
  - unfold assign_fields.
    repeat (etrans; [|apply dict_keys_set_prefix]). done.
Qed.

(** ** The script *)

Section ScriptFacts.
Variable userhome : option string.
Variable json_loads : string → option json.
Variable json_dumps : nat → json → string.
Variable writable : string → bool.

#[local] Abbreviation run := (main userhome json_loads json_dumps writable).
#[local] Abbreviation input := (catalog_path userhome).
#[local] Abbreviation output := (output_path userhome).

Lemma append_inj_l p a b : p +:+ a = p +:+ b → a = b.
Proof. induction p as [|c p IH]; simpl; [done|]. intros [= H]. by apply IH. Qed.

(** The two paths differ, whatever "~" expands to. *)
Lemma paths_distinct : input ≠ output.
Proof.
  cbv [catalog_path output_path expanduser]. destruct userhome as [home|].
  - intros H%append_inj_l. discriminate.
  - discriminate.
Qed.

(** The run of the script, stage by stage. *)
Lemma main_stages w :
  run w =
  match files w !! input with
  | None => (inl FileNotFoundError, w)
  | Some text =>
      match json_loads text with
      | None => (inl JSONDecodeError, w)
      | Some catalog =>
          match update_catalog catalog w with
          | (inl e, w1) => (inl e, w1)
          | (inr catalog', w1) =>
              if writable output
              then (inr tt,
                    World (<[output := json_dumps 2 catalog']> (files w1))
                          (stdout w1 ++ closing_lines userhome))
              else (inl OSError, w1)
          end
      end
  end.
Proof.
  unfold main, bind at 1, open_read.
  destruct (files w !! input) as [text|]; [|done].
  unfold bind at 1, json_load.
  destruct (json_loads text) as [catalog|]; [|done]. unfold ret at 1.
  unfold bind at 1.
  destruct (update_catalog catalog w) as [[e|catalog'] w1]; [done|].
  unfold bind at 1, open_write.
  destruct (writable output); [|done].
  unfold bind, json_dump, print, closing_lines. simpl.
  rewrite insert_insert_eq. by rewrite <- !app_assoc.
Qed.

(** The script completes on every readable, well-formed catalog. *)
Lemma main_total w text d assets :
  files w !! input = Some text →
  json_loads text = Some (JObj d) →
  dict_get "assets" d = Some (JArr assets) →
  Forall (λ a, well_formed a = true) assets →
  writable output = true →
  run w
  = (inr tt,
     World (<[output := json_dumps 2
                (JObj (dict_set "assets" (JArr (rename_once <$> assets)) d))]>
              (files w))
           ((stdout w ++ rename_lines assets) ++ closing_lines userhome)).
Proof.
  intros Hin Hload Hd Hwf Hrw.
  by rewrite main_stages, Hin, Hload, (update_catalog_total _ _ _ Hd Hwf), Hrw.
Qed.



End ScriptFacts.

(** * The claims on the sample catalog *)

#[local] Transparent renames.

Lemma sample_run :
  update_catalog sample_catalog sample_world
  = (inr sample_catalog', sample_world').
Proof. vm_compute. reflexivity. Defined.

Lemma sample_model_matches :
  criterion sample_model "standard-model-1" sample_entry.
Proof.
  exists "old-pack/standard-model-1". repeat split; vm_compute; reflexivity.
Defined.

Lemma sample_texture_no_match k rd : ¬ criterion sample_texture k rd.
Proof. intros (s & Ht & _). discriminate Ht. Defined.

Lemma renamed_asset_has_table_fields_witness :
  update_catalog sample_catalog sample_world
  = (inr sample_catalog', sample_world')
  ∧ assets_of sample_catalog = Some [sample_texture; sample_model]
  ∧ [sample_texture; sample_model] !! 1 = Some sample_model
  ∧ criterion sample_model "standard-model-1" sample_entry
  ∧ ∃ assets' asset',
      assets_of sample_catalog' = Some assets'
      ∧ assets' !! 1 = Some asset'
      ∧ field "id" asset'
        = Some (JStr ("downloads-pack/" +:+ name sample_entry))
      ∧ field "label" asset' = Some (JStr (label sample_entry))
      ∧ field "description" asset' = Some (JStr (description sample_entry))
      ∧ field "tags" asset' = Some (JArr (JStr <$> tags sample_entry)).
Proof.
  repeat (split; [first [exact sample_run | exact sample_model_matches
                        | reflexivity]|]).
  exact (renamed_asset_has_table_fields
           sample_catalog sample_catalog' sample_world sample_world'
           [sample_texture; sample_model] 1 sample_model
           "standard-model-1" sample_entry
           sample_run eq_refl eq_refl sample_model_matches).
Defined.

Lemma unmatched_asset_unchanged_witness :
  update_catalog sample_catalog sample_world
  = (inr sample_catalog', sample_world')
  ∧ [sample_texture; sample_model] !! 0 = Some sample_texture
  ∧ (∀ k rd, ¬ criterion sample_texture k rd)
  ∧ ∃ assets',
      assets_of sample_catalog' = Some assets'
      ∧ assets' !! 0 = Some sample_texture.
Proof.
  split; [exact sample_run|]. split; [reflexivity|].
  split; [exact sample_texture_no_match|].
  exact (unmatched_asset_unchanged
           sample_catalog sample_catalog' sample_world sample_world'
           [sample_texture; sample_model] 0 sample_texture
           sample_run eq_refl eq_refl sample_texture_no_match).
Defined.

Lemma table_applied_once_witness :
  update_catalog sample_catalog sample_world
  = (inr sample_catalog', sample_world')
  ∧ assets_of sample_catalog'
    = Some (rename_once <$> [sample_texture; sample_model])
  ∧ stdout sample_world'
    = stdout sample_world ++ rename_lines [sample_texture; sample_model]
  ∧ length (rename_lines [sample_texture; sample_model])
    = length (filter (λ a, is_Some (selected a))
                [sample_texture; sample_model])
  ∧ files sample_world' = files sample_world.
Proof.
  split; [exact sample_run|].
  exact (table_applied_once
           sample_catalog sample_catalog' sample_world sample_world'
           [sample_texture; sample_model] sample_run eq_refl).
Defined.

Lemma new_id_ignores_prefix_witness :
  dict_get "type" sample_fields = Some (JStr "model")
  ∧ dict_get "id" sample_fields = Some (JStr "old-pack/standard-model-1")
  ∧ dict_get "standard-model-1" renames = Some sample_entry
  ∧ ∃ asset',
      update_asset (JObj sample_fields) sample_world
      = (inr asset',
         say (rename_line "standard-model-1" sample_entry) sample_world)
      ∧ field "id" asset'
        = Some (JStr ("downloads-pack/" +:+ name sample_entry)).
Proof.
  split; [reflexivity|]. split; [reflexivity|].
  split; [vm_compute; reflexivity|].
  apply (new_id_ignores_prefix
           sample_fields "old-pack/standard-model-1" "old-pack"
           "standard-model-1" sample_entry sample_world);
    [reflexivity | reflexivity | right; reflexivity
    | vm_compute; reflexivity].
Defined.

Lemma update_idempotent_witness :
  update_catalog sample_catalog sample_world
  = (inr sample_catalog', sample_world')
  ∧ (∀ w1, update_catalog sample_catalog' w1 = (inr sample_catalog', w1))
  ∧ (∀ k rd, dict_get k renames = Some rd →
             dict_get (name rd) renames = None).
Proof.
  split; [exact sample_run|].
  exact (update_idempotent
           sample_catalog sample_catalog' sample_world sample_world'
           sample_run).
Defined.

Lemma matched_asset_other_fields_kept_witness :
  update_catalog sample_catalog sample_world
  = (inr sample_catalog', sample_world')
  ∧ criterion sample_model "standard-model-1" sample_entry
  ∧ ∃ assets' d d',
      assets_of sample_catalog' = Some assets'
      ∧ sample_model = JObj d
      ∧ assets' !! 1 = Some (JObj d')
      ∧ dict_get "type" d' = Some (JStr "model")
      ∧ (∀ f, f ∉ ["id"; "label"; "description"; "tags"] →
              dict_get f d' = dict_get f d)
      ∧ dict_keys d `prefix_of` dict_keys d'.
Proof.
  split; [exact sample_run|]. split; [exact sample_model_matches|].
  exact (matched_asset_other_fields_kept
           sample_catalog sample_catalog' sample_world sample_world'
           [sample_texture; sample_model] 1 sample_model
           "standard-model-1" sample_entry
           sample_run eq_refl eq_refl sample_model_matches).
Defined.



(** * The corner cases of the loop, evaluated *)

Example split_segments :
  split "/" "a/b//c/" = ["a"; "b"; ""; "c"; ""] ∧ split "/" "" = [""].
Proof. split; reflexivity. Qed.

(** A record without "type" raises [KeyError]. *)
Example asset_without_type w :
  update_asset (JObj [("id", JStr "standard-model-1")]) w
  = (inl (KeyError "type"), w).
Proof. reflexivity. Qed.

(** A model without "id" raises [KeyError]; one whose id is a number raises
    [AttributeError]; an asset that is not a record raises [TypeError]. *)
Example model_without_id w :
  update_asset (JObj [("type", JStr "model")]) w = (inl (KeyError "id"), w)
  ∧ update_asset (JObj [("type", JStr "model"); ("id", JNum (NInt 7))]) w
    = (inl AttributeError, w)
  ∧ update_asset (JArr []) w = (inl TypeError, w).
Proof. repeat split; reflexivity. Qed.

(** An id whose last segment is empty selects nothing. *)
Example trailing_slash_not_selected w :
  update_asset
    (JObj [("type", JStr "model"); ("id", JStr "standard-model-1/")]) w
  = (inr (JObj [("type", JStr "model"); ("id", JStr "standard-model-1/")]),
     w).
Proof. vm_compute. reflexivity. Qed.

(** An empty dict or an empty string under "assets" is walked without a
    step; a non-empty one raises on its first key or character. *)
Example assets_not_a_list w :
  update_catalog (JObj [("assets", JObj [])]) w
  = (inr (JObj [("assets", JObj [])]), w)
  ∧ update_catalog (JObj [("assets", JStr "x")]) w = (inl TypeError, w)
  ∧ update_catalog (JObj [("assets", JNull)]) w = (inl TypeError, w)
  ∧ update_catalog (JObj []) w = (inl (KeyError "assets"), w).
Proof. repeat split; reflexivity. Qed.

(** A fault in the loop ends the script before the output is opened: the
    lines of the renames done so far are on standard output, no file is
    written. *)
Example fault_in_loop_writes_nothing :
  main sample_home
    (λ _, Some (JObj [("assets", JArr [sample_model; JNull])]))
    sample_dumps (λ _, true) sample_start
  = (inl TypeError,
     World sample_files [rename_line "standard-model-1" sample_entry]).
Proof. vm_compute. reflexivity. Qed.

(** * Further properties of the script *)

#[local] Opaque renames.

(** ** The loop body *)

(** X1. Line 101 never raises on a string id: [id.split('/')[-1]] is always
    defined, contains no '/', and is the whole id or what follows a '/' at
    the end of it. *)
Theorem old_id_is_trailing_segment s w :
  ∃ old_id,
    (let* parts := method_split (JStr s) "/" in index_last parts) w
    = (inr old_id, w)
    ∧ occurs "/" old_id = false
    ∧ (s = old_id ∨ ∃ p, s = p +:+ "/" +:+ old_id).
Proof.
  exists (after_last "/" s). unfold bind, method_split, ret, index_last.
  rewrite last_split. split; [done|].
  destruct (after_last_spec "/" s) as [H1 H2]. split; [done|].
  destruct (occurs "/" s); [right|left]; done.
Qed.







(** The outcome of a run that returns does not depend on the world. *)
Lemma update_catalog_any_world catalog catalog' w w' :
  update_catalog catalog w = (inr catalog', w') →
  ∃ lines,
    lines = rename_lines (default [] (assets_of catalog))
    ∧ w' = World (files w) (stdout w ++ lines)
    ∧ ∀ w0, update_catalog catalog w0
            = (inr catalog', World (files w0) (stdout w0 ++ lines)).
Proof.
  intros Hrun. destruct (assets_of catalog) as [assets|] eqn:Ha.
  - destruct (update_catalog_list _ _ _ _ _ Hrun Ha)
      as (d & -> & -> & -> & Hwf).
    apply assets_of_inv in Ha as (d0 & [= <-] & Hd).
    exists (rename_lines assets). split; [done|]. split; [done|].
    intros w0. by apply update_catalog_total.
  - destruct (update_catalog_no_list _ _ _ _ Hrun Ha) as (-> & -> & Hany).
    exists []. split; [done|]. rewrite app_nil_r.
    split; [by destruct w|]. intros w0. rewrite Hany, app_nil_r.
    by destruct w0.
Qed.


Lemma dict_set_id {V} k (v : V) d :
  dict_get k d = Some v → dict_set k v d = d.
Proof.
  induction d as [|[k' v'] d IH]; simpl; [done|].
  destruct (String.eqb k k'); [by intros [= ->]|].
  intros H. by rewrite IH.
Qed.

(** A selected asset is changed by the rename: its id is another one. *)
Lemma selected_changes asset k rd :
  selected asset = Some (k, rd) → rename_once asset ≠ asset.
Proof.
  intros Hsel Heq.
  pose proof (selected_rename_once asset) as Hnone.
  rewrite Heq in Hnone. congruence.
Qed.

Lemma rename_once_fixes assets :
  rename_once <$> assets = assets ↔ rename_lines assets = [].
Proof.
  induction assets as [|a l IH]; [done|].
  rewrite rename_lines_cons, fmap_cons.
  destruct (selected a) as [[k rd]|] eqn:Hsel.
  - split; [|done]. intros [= Ha _]. by destruct (selected_changes _ _ _ Hsel).
  - rewrite <- IH. unfold rename_once at 1. rewrite Hsel.
    split; [by intros [= ->]|by intros ->].
Qed.

(** X4. The printed lines are a faithful change log: a run that returns
    leaves the catalog as it was if and only if it printed no line. *)
Theorem lines_printed_iff_changed catalog catalog' w w' :
  update_catalog catalog w = (inr catalog', w') →
  (catalog' = catalog ↔ stdout w' = stdout w).
Proof.
  intros Hrun. destruct (assets_of catalog) as [assets|] eqn:Ha.
  - destruct (update_catalog_list _ _ _ _ _ Hrun Ha)
      as (d & -> & -> & -> & _).
    apply assets_of_inv in Ha as (d0 & [= <-] & Hd). simpl.
    rewrite <- (app_nil_r (stdout w)) at 2.
    split.
    + intros [= Heq]. f_equal. apply rename_once_fixes.
      apply (f_equal (dict_get "assets")) in Heq.
      rewrite dict_get_set_eq, Hd in Heq. by injection Heq.
    + intros Hl%app_inv_head%rename_once_fixes. rewrite Hl.
      by rewrite dict_set_id.
  - by destruct (update_catalog_no_list _ _ _ _ Hrun Ha) as (-> & -> & _).
Qed.

(** ** The order of the keys *)

(** X5. The keys of a renamed asset: those of the input record in their
    order, followed by those of "label", "description" and "tags" the record
    lacked, in this order. *)
Theorem renamed_asset_key_order d k rd w d' w' :
  criterion (JObj d) k rd →
  update_asset (JObj d) w = (inr (JObj d'), w') →
  dict_keys d'
  = dict_keys d
    ++ filter (λ f, dict_get f d = None) ["label"; "description"; "tags"].
Proof.
  intros Hc Hrun.
  assert (Hsel := proj2 (selected_criterion _ _ _) Hc).
  rewrite (update_asset_selected _ _ _ _ Hsel) in Hrun.
  unfold rename_once in Hrun. rewrite Hsel in Hrun.
  injection Hrun as <- _.
  destruct Hc as (s & _ & Hi & _). simpl in Hi.
  unfold assign_fields.
  set (d1 := dict_set "id" _ d).
  set (d2 := dict_set "label" _ d1).
  set (d3 := dict_set "description" _ d2).
  assert (K1 : dict_keys d1 = dict_keys d)
    by (apply dict_keys_set_present; by rewrite Hi).
  assert (G1 : ∀ f, f ≠ "id" → dict_get f d1 = dict_get f d)
    by (intros f Hf; by apply dict_get_set_ne).
  assert (G2 : ∀ f, f ≠ "id" → f ≠ "label" → dict_get f d2 = dict_get f d).
  { intros f Hf Hf'. unfold d2. rewrite dict_get_set_ne by done. by apply G1. }
  assert (G3 : dict_get "tags" d3 = dict_get "tags" d).
  { unfold d3. rewrite dict_get_set_ne by done. by apply G2. }
  destruct (dict_get "label" d) as [x1|] eqn:E1;
    destruct (dict_get "description" d) as [x2|] eqn:E2;
    destruct (dict_get "tags" d) as [x3|] eqn:E3;
    repeat first
      [ rewrite filter_cons_True by (by rewrite ?E1, ?E2, ?E3)
      | rewrite filter_cons_False by (by rewrite ?E1, ?E2, ?E3) ];
    rewrite filter_nil;
    first [ rewrite (dict_keys_set_present "tags") by (rewrite G3; eauto)
          | rewrite (dict_keys_set_absent "tags") by (by rewrite G3) ];
    unfold d3;
    first [ rewrite (dict_keys_set_present "description")
              by (rewrite G2 by done; rewrite E2; eauto)
          | rewrite (dict_keys_set_absent "description")
              by (rewrite G2 by done; by rewrite E2) ];
    unfold d2;
    first [ rewrite (dict_keys_set_present "label")
              by (rewrite G1 by done; rewrite E1; eauto)
          | rewrite (dict_keys_set_absent "label")
              by (rewrite G1 by done; by rewrite E1) ];
    rewrite K1, <- ?app_assoc; by rewrite ?app_nil_r.
Qed.

(** ** Distinct models stay distinct *)

Lemma renames_names_injective k1 k2 rd1 rd2 :
  dict_get k1 renames = Some rd1 →
  dict_get k2 renames = Some rd2 →
  name rd1 = name rd2 → k1 = k2.
Proof.
  intros H1%dict_get_elem_of%list_elem_of_In H2%dict_get_elem_of%list_elem_of_In.
  assert (Hall : forallb (λ e1, forallb (λ e2,
             implb (String.eqb (name e1.2) (name e2.2))
                   (String.eqb e1.1 e2.1)) renames) renames = true)
    by (vm_compute; reflexivity).
  rewrite forallb_forall in Hall. specialize (Hall _ H1).
  rewrite forallb_forall in Hall. specialize (Hall _ H2). simpl in Hall.
  intros Hn. apply String.eqb_eq in Hn. rewrite Hn in Hall.
  by apply String.eqb_eq.
Qed.

(** X6. Two renamed assets get the same new id if and only if their old ids
    have the same trailing segment: the table merges no two of its keys. *)
Theorem new_ids_distinct a1 a2 k1 k2 rd1 rd2 w1 w2 a1' a2' w1' w2' :
  criterion a1 k1 rd1 →
  criterion a2 k2 rd2 →
  update_asset a1 w1 = (inr a1', w1') →
  update_asset a2 w2 = (inr a2', w2') →
  (field "id" a1' = field "id" a2' ↔ k1 = k2).
Proof.
  intros Hc1 Hc2 Hr1 Hr2.
  apply update_asset_ok in Hr1 as [-> _]. apply update_asset_ok in Hr2 as [-> _].
  destruct (criterion_rename_once _ _ _ Hc1) as (d1 & -> & ->).
  destruct (criterion_rename_once _ _ _ Hc2) as (d2 & -> & ->).
  destruct (field_assign_fields rd1 d1) as (-> & _).
  destruct (field_assign_fields rd2 d2) as (-> & _).
  destruct Hc1 as (s1 & _ & _ & _ & R1). destruct Hc2 as (s2 & _ & _ & _ & R2).
  split.
  - intros [= Hn%append_inj_l]. by eapply renames_names_injective.
  - intros <-. congruence.
Qed.

(** ** Runs of the script *)

Section RunFacts.
Variable userhome : option string.
Variable json_loads : string → option json.
Variable json_dumps : nat → json → string.
Variable writable : string → bool.

#[local] Abbreviation run := (main userhome json_loads json_dumps writable).
#[local] Abbreviation input := (catalog_path userhome).
#[local] Abbreviation output := (output_path userhome).


(** X8. A completed run prints, after what was on standard output, one line
    per selected asset in list order and then the four closing prints. *)
Theorem completed_run_prints w w' :
  run w = (inr tt, w') →
  ∃ text catalog,
    files w !! input = Some text
    ∧ json_loads text = Some catalog
    ∧ stdout w'
      = stdout w ++ rename_lines (default [] (assets_of catalog))
        ++ closing_lines userhome
    ∧ length (stdout w')
      = length (stdout w)
        + length (filter (λ a, is_Some (selected a))
                    (default [] (assets_of catalog)))
        + 4.
Proof.
  rewrite main_stages.
  destruct (files w !! input) as [text|] eqn:Hin; [|done].
  destruct (json_loads text) as [catalog|] eqn:Hload; [|done].
  destruct (update_catalog catalog w) as [[e|catalog'] w1] eqn:Hup; [done|].
  destruct (writable output); [|done].
  intros [= <-]. exists text, catalog. split; [done|]. split; [done|].
  destruct (update_catalog_any_world _ _ _ _ Hup) as (lines & -> & -> & _).
  simpl. rewrite <- app_assoc. split; [done|].
  rewrite !length_app, rename_lines_length. simpl. lia.
Qed.

(** X9. The script can be run again: the input file is as it was, so the
    second run completes, prints the same lines and leaves the file system
    as the first run left it. *)
Theorem rerun_writes_same_files w w1 :
  main userhome json_loads json_dumps writable w = (inr tt, w1) →
  ∃ w2 lines,
    main userhome json_loads json_dumps writable w1 = (inr tt, w2)
    ∧ files w2 = files w1
    ∧ stdout w1 = stdout w ++ lines
    ∧ stdout w2 = stdout w1 ++ lines.
Proof.
  rewrite !main_stages.
  destruct (files w !! input) as [text|] eqn:Hin; [|done].
  destruct (json_loads text) as [catalog|] eqn:Hload; [|done].
  destruct (update_catalog catalog w) as [[e|catalog'] w0] eqn:Hup; [done|].
  destruct (writable output) eqn:Hrw; [|done].
  intros [= <-]. simpl.
  destruct (update_catalog_any_world _ _ _ _ Hup) as (lines & _ & -> & Hany).
  simpl. rewrite lookup_insert_ne by apply not_eq_sym, paths_distinct.
  rewrite Hin, Hload, Hany. simpl.
  eexists _, (lines ++ closing_lines userhome).
  split; [done|]. simpl. rewrite insert_insert_eq.
  split; [done|]. by rewrite !app_assoc.
Qed.


End RunFacts.





(** * The further properties on the sample catalog *)

#[local] Transparent renames.

Lemma sample_script_run :
  main sample_home sample_loads sample_dumps (λ _, true) sample_start
  = (inr tt, sample_final).
Proof. vm_compute. reflexivity. Defined.

Lemma sample_dragon_matches :
  criterion sample_dragon "detailed-model-13" dragon_entry.
Proof.
  exists "detailed-model-13". repeat split; vm_compute; reflexivity.
Defined.

Lemma lines_printed_iff_changed_witness :
  update_catalog sample_catalog sample_world
  = (inr sample_catalog', sample_world')
  ∧ (sample_catalog' = sample_catalog
     ↔ stdout sample_world' = stdout sample_world).
Proof.
  split; [exact sample_run|].
  exact (lines_printed_iff_changed
           sample_catalog sample_catalog' sample_world sample_world'
           sample_run).
Defined.

Lemma renamed_asset_key_order_witness :
  criterion (JObj sample_fields) "standard-model-1" sample_entry
  ∧ update_asset (JObj sample_fields) sample_world
    = (inr (JObj sample_fields'), sample_world')
  ∧ dict_keys sample_fields'
    = dict_keys sample_fields
      ++ filter (λ f, dict_get f sample_fields = None)
           ["label"; "description"; "tags"].
Proof.
  assert (Hrun : update_asset (JObj sample_fields) sample_world
                 = (inr (JObj sample_fields'), sample_world'))
    by (vm_compute; reflexivity).
  split; [exact sample_model_matches|]. split; [exact Hrun|].
  exact (renamed_asset_key_order
           sample_fields "standard-model-1" sample_entry sample_world
           sample_fields' sample_world' sample_model_matches Hrun).
Defined.

Lemma new_ids_distinct_witness :
  criterion sample_model "standard-model-1" sample_entry
  ∧ criterion sample_dragon "detailed-model-13" dragon_entry
  ∧ (field "id" sample_model' = field "id" (rename_once sample_dragon)
     ↔ "standard-model-1" = "detailed-model-13").
Proof.
  split; [exact sample_model_matches|].
  split; [exact sample_dragon_matches|].
  apply (new_ids_distinct
           sample_model sample_dragon "standard-model-1" "detailed-model-13"
           sample_entry dragon_entry sample_world sample_world
           sample_model' (rename_once sample_dragon) sample_world'
           (say (rename_line "detailed-model-13" dragon_entry) sample_world)
           sample_model_matches sample_dragon_matches);
    vm_compute; reflexivity.
Defined.


Lemma completed_run_prints_witness :
  main sample_home sample_loads sample_dumps (λ _, true) sample_start
  = (inr tt, sample_final)
  ∧ ∃ text catalog,
      files sample_start !! catalog_path sample_home = Some text
      ∧ sample_loads text = Some catalog
      ∧ stdout sample_final
        = stdout sample_start
          ++ rename_lines (default [] (assets_of catalog))
          ++ closing_lines sample_home
      ∧ length (stdout sample_final)
        = length (stdout sample_start)
          + length (filter (λ a, is_Some (selected a))
                      (default [] (assets_of catalog)))
          + 4.
Proof.
  split; [exact sample_script_run|].
  exact (completed_run_prints
           sample_home sample_loads sample_dumps (λ _, true)
           sample_start sample_final sample_script_run).
Defined.

Lemma rerun_writes_same_files_witness :
  main sample_home sample_loads sample_dumps (λ _, true) sample_start
  = (inr tt, sample_final)
  ∧ ∃ w2 lines,
      main sample_home sample_loads sample_dumps (λ _, true) sample_final
      = (inr tt, w2)
      ∧ files w2 = files sample_final
      ∧ stdout sample_final = stdout sample_start ++ lines
      ∧ stdout w2 = stdout sample_final ++ lines.
Proof.
  split; [exact sample_script_run|].
  exact (rerun_writes_same_files
           sample_home sample_loads sample_dumps (λ _, true)
           sample_start sample_final sample_script_run).
Defined.


